(** * rack.py: the Hadoop topology script of etc/hadoop

    The script binds the module global [rack] to a dictionary literal and,
    when run as a program, prints ["/" + rack.get(sys.argv[1], "rack-default")].

    The embedding follows the script statement by statement.  Python 2 [str]
    values are byte strings, modelled by [string]; the dictionary is a
    [gmap string string]; the interpreter state (module globals, the bytes
    written to standard output, and the log of dictionary reads and writes to
    the output stream) is threaded through a small state-and-exception monad. *)

From Stdlib Require Import ZArith Ascii String.
From stdpp Require Import base strings gmap list.

Local Open Scope string_scope.

(** ** Strings *)

(** The line terminator the [print] statement appends (byte 10). *)
Definition newline_char : ascii := "010"%char.
Definition newline : string := String newline_char "".

(** Does the byte string hold a line feed? *)
Fixpoint has_newline (s : string) : bool :=
  match s with
  | "" => false
  | String c s' => if Ascii.eqb c newline_char then true else has_newline s'
  end.

(** Number of line feeds in a byte string: the number of lines written. *)
Fixpoint count_newlines (s : string) : nat :=
  match s with
  | "" => 0
  | String c s' => (if Ascii.eqb c newline_char then 1 else 0) + count_newlines s'
  end.

(** ** The interpreter monad *)

Module Py.

(** The exceptions the statements of the script can raise. *)
Inductive exn : Type :=
| IndexError   (* list index out of range *)
| NameError.   (* global name is not defined *)

(** What the script does to its environment, in program order. *)
Inductive event : Type :=
| EvGet (key : string)      (* one [dict.get] on the table *)
| EvWrite (data : string).  (* one write to sys.stdout *)

Record state : Type := mkState {
  globals : gmap string (gmap string string);  (* module globals bound to dicts *)
  sys_stdout : string;                         (* bytes written so far *)
  trace : list event
}.

Inductive res (A : Type) : Type :=
| Ret (a : A)
| Raise (e : exn).
Arguments Ret {A} a.
Arguments Raise {A} e.

Definition M (A : Type) : Type := state -> res A * state.

Definition ret {A} (a : A) : M A := fun st => (Ret a, st).

Definition raise {A} (e : exn) : M A := fun st => (Raise e, st).

Definition bind {A B} (m : M A) (k : A -> M B) : M B :=
  fun st =>
    match m st with
    | (Ret a, st') => k a st'
    | (Raise e, st') => (Raise e, st')
    end.

(** [name = value] at module level. *)
Definition store_global (name : string) (d : gmap string string) : M unit :=
  fun st => (Ret tt, mkState (<[name := d]> (globals st)) (sys_stdout st) (trace st)).

(** Reading a module global; an unbound name raises NameError. *)
Definition load_global (name : string) : M (gmap string string) :=
  fun st =>
    match globals st !! name with
    | Some d => (Ret d, st)
    | None => (Raise NameError, st)
    end.

(** [l[i]] for a non-negative index; out of range raises IndexError. *)
Definition subscript (l : list string) (i : nat) : M string :=
  match l !! i with
  | Some x => ret x
  | None => raise IndexError
  end.

(** [d.get(key, dflt)]: the value stored under [key], else [dflt].  The
    method reads the dictionary and never raises for a missing key. *)
Definition dict_get (d : gmap string string) (key dflt : string) : M string :=
  fun st =>
    (Ret (default dflt (d !! key)),
     mkState (globals st) (sys_stdout st) (trace st ++ [EvGet key])).

(** The Python 2 statement [print s]: [s] and a line feed go to sys.stdout. *)
Definition print (s : string) : M unit :=
  fun st =>
    (Ret tt,
     mkState (globals st) (sys_stdout st +:+ s +:+ newline)
             (trace st ++ [EvWrite (s +:+ newline)])).

End Py.

Notation "x <- m ;;; k" := (Py.bind m (fun x => k))
  (at level 100, m at next level, right associativity).
Notation "m ;;; k" := (Py.bind m (fun _ => k))
  (at level 100, right associativity).

(** ** The script *)

(** The dictionary display of lines 5-13, in source order. *)
Definition rack_items : list (string * string) :=
  [ ("compute-13-10.local", "rack-1");
    ("compute-13-12.local", "rack-1");
    ("compute-13-14.local", "rack-2");
    ("compute-13-16.local", "rack-2");
    ("192.168.32.92", "rack-1");
    ("192.168.32.94", "rack-1");
    ("192.168.32.96", "rack-2");
    ("192.168.32.98", "rack-2") ].

(** A dictionary display stores its items left to right, a later item
    replacing an earlier one with the same key. *)
Definition dict_display (items : list (string * string)) : gmap string string :=
  fold_left (fun d kv => <[kv.1 := kv.2]> d) items ∅.

Definition rack : gmap string string := dict_display rack_items.

(** Line 17: [print "/" + rack.get(sys.argv[1], "rack-default")].  The
    operands are evaluated left to right: the global [rack], then
    [sys.argv[1]], then the call, then the concatenation. *)
Definition main (argv : list string) : Py.M unit :=
  d <- Py.load_global "rack" ;;;
  a <- Py.subscript argv 1 ;;;
  r <- Py.dict_get d a "rack-default" ;;;
  Py.print ("/" +:+ r).

(** The module body: the assignment of lines 5-13, then the guarded
    statement of lines 16-17. *)
Definition module_body (name : string) (argv : list string) : Py.M unit :=
  Py.store_global "rack" rack ;;;
  if decide (name = "__main__") then main argv else Py.ret tt.

(** ** Running the script as a process *)

Definition initial_state : Py.state := Py.mkState ∅ "" [].

Record process : Type := mkProcess {
  exit_status : Z;
  stdout : string;
  uncaught : option Py.exn;          (* the exception of the traceback, if any *)
  events : list Py.event;
  final_globals : gmap string (gmap string string)
}.

(** [python rack.py args...]: [sys.argv] is the script path followed by the
    arguments, the module runs under the name [__main__], and an uncaught
    exception ends the interpreter with status 1. *)
Definition run (argv : list string) : process :=
  match module_body "__main__" argv initial_state with
  | (Py.Ret _, st) =>
      mkProcess 0 (Py.sys_stdout st) None (Py.trace st) (Py.globals st)
  | (Py.Raise e, st) =>
      mkProcess 1 (Py.sys_stdout st) (Some e) (Py.trace st) (Py.globals st)
  end.

(** ** How the statements act on the interpreter state *)

Section Statements.

Variable st : Py.state.

(** The guarded statement of line 17 on an argument vector that holds an
    address: one [get] on the dictionary bound to [rack], one line written,
    the globals untouched. *)
Lemma main_with_address (d : gmap string string) (script addr : string)
    (rest : list string) :
  Py.globals st !! "rack" = Some d ->
  main (script :: addr :: rest) st =
    (Py.Ret tt,
     Py.mkState (Py.globals st)
       (Py.sys_stdout st +:+ ("/" +:+ default "rack-default" (d !! addr)) +:+ newline)
       (Py.trace st ++
          [Py.EvGet addr;
           Py.EvWrite (("/" +:+ default "rack-default" (d !! addr)) +:+ newline)])).
Proof.
  intros Hd. unfold main, Py.bind, Py.load_global. rewrite Hd.
  unfold Py.subscript, Py.ret, Py.dict_get, Py.print. simpl.
  by rewrite <- app_assoc.
Qed.

(** The same statement on an argument vector with no element at index 1:
    IndexError, raised before anything is looked up or written. *)
Lemma main_without_address (d : gmap string string) (argv : list string) :
  Py.globals st !! "rack" = Some d ->
  (length argv <= 1)%nat ->
  main argv st = (Py.Raise Py.IndexError, st).
Proof.
  intros Hd Hlen. unfold main, Py.bind, Py.load_global. rewrite Hd.
  unfold Py.subscript. rewrite lookup_ge_None_2 by lia. reflexivity.
Qed.

End Statements.

(** The process for an argument vector that holds an address. *)
Lemma run_with_address (script addr : string) (rest : list string) :
  run (script :: addr :: rest) =
    mkProcess 0
      (("/" +:+ default "rack-default" (rack !! addr)) +:+ newline)
      None
      [Py.EvGet addr;
       Py.EvWrite (("/" +:+ default "rack-default" (rack !! addr)) +:+ newline)]
      {["rack" := rack]}.
Proof.
  unfold run, module_body.
  rewrite decide_True by reflexivity.
  unfold Py.bind at 1. unfold Py.store_global.
  rewrite (main_with_address _ rack) by apply lookup_insert_eq.
  reflexivity.
Qed.

(** The process for an argument vector with no address. *)
Lemma run_without_address (argv : list string) :
  (length argv <= 1)%nat ->
  run argv = mkProcess 1 "" (Some Py.IndexError) [] {["rack" := rack]}.
Proof.
  intros Hlen. unfold run, module_body.
  rewrite decide_True by reflexivity.
  unfold Py.bind at 1. unfold Py.store_global.
  rewrite (main_without_address _ rack) by (apply lookup_insert_eq || exact Hlen).
  reflexivity.
Qed.

(** ** The table *)

(** The display unfolded into its eight stores. *)
Lemma rack_unfold :
  rack =
    <["192.168.32.98" := "rack-2"]> (<["192.168.32.96" := "rack-2"]>
   (<["192.168.32.94" := "rack-1"]> (<["192.168.32.92" := "rack-1"]>
   (<["compute-13-16.local" := "rack-2"]> (<["compute-13-14.local" := "rack-2"]>
   (<["compute-13-12.local" := "rack-1"]> (<["compute-13-10.local" := "rack-1"]> ∅))))))).
Proof. reflexivity. Qed.

(** Every value of the table is one of the two rack names. *)
Lemma rack_values :
  map_Forall (fun _ v => v = "rack-1" \/ v = "rack-2") rack.
Proof.
  rewrite rack_unfold.
  repeat (apply map_Forall_insert_2; [auto |]).
  apply map_Forall_empty.
Qed.

(** The keys of the display are pairwise different, so the table holds
    exactly the items written in the source. *)
Lemma rack_lookup_items (k v : string) :
  rack !! k = Some v <-> (k, v) ∈ rack_items.
Proof.
  rewrite rack_unfold. unfold rack_items.
  rewrite !lookup_insert_Some, lookup_empty, !elem_of_cons, elem_of_nil.
  split.
  - intros H.
    repeat (destruct H as [[<- <-] | [_ H]]; [auto 12 |]).
    discriminate H.
  - intros H.
    repeat (destruct H as [H | H]; [injection H as -> ->; auto 20 |]).
    destruct H.
Qed.

Lemma rack_size : size rack = 8%nat.
Proof. reflexivity. Qed.

Lemma rack_value_cases (k v : string) :
  rack !! k = Some v -> v = "rack-1" \/ v = "rack-2".
Proof. intros H. exact (rack_values k v H). Qed.

(** The statement of line 17 never changes the module globals, whatever the
    state and the argument vector, and whether it prints or raises. *)
Lemma main_preserves_globals (st : Py.state) (argv : list string) :
  Py.globals (main argv st).2 = Py.globals st.
Proof.
  destruct (Py.globals st !! "rack") as [d |] eqn:Hd.
  - destruct argv as [| script [| addr rest]].
    + rewrite (main_without_address st d) by (simpl; auto). reflexivity.
    + rewrite (main_without_address st d) by (simpl; auto). reflexivity.
    + rewrite (main_with_address st d) by exact Hd. reflexivity.
  - unfold main, Py.bind, Py.load_global. rewrite Hd. reflexivity.
Qed.

(** [dict.get] with a default always returns, and returns the stored value
    or the default. *)
Lemma dict_get_total (d : gmap string string) (key dflt : string) (st : Py.state) :
  (Py.dict_get d key dflt st).1 = Py.Ret (default dflt (d !! key)).
Proof. reflexivity. Qed.

(** The printed line, for any address: a slash and a rack name. *)
Lemma rack_path_cases (addr : string) :
  "/" +:+ default "rack-default" (rack !! addr) = "/rack-1" \/
  "/" +:+ default "rack-default" (rack !! addr) = "/rack-2" \/
  "/" +:+ default "rack-default" (rack !! addr) = "/rack-default".
Proof.
  destruct (rack !! addr) as [v |] eqn:Hv; simpl.
  - destruct (rack_value_cases addr v Hv) as [-> | ->]; auto.
  - auto.
Qed.

(** ** The properties of the specification *)

(** C1: for every address that is a key of the rack table, running the
    script with that address as its single argument writes exactly "/"
    followed by the table's value for the key and a newline to standard
    output (and the process succeeds). *)
Theorem C1_known_address (script addr v : string) :
  rack !! addr = Some v ->
  stdout (run [script; addr]) = ("/" +:+ v) +:+ newline /\
  exit_status (run [script; addr]) = 0%Z /\
  uncaught (run [script; addr]) = None.
Proof.
  intros Hv. rewrite run_with_address, Hv. simpl. auto.
Qed.

Lemma C1_known_address_witness :
  rack !! "192.168.32.96" = Some "rack-2" /\
  stdout (run ["rack.py"; "192.168.32.96"]) = ("/" +:+ "rack-2") +:+ newline /\
  exit_status (run ["rack.py"; "192.168.32.96"]) = 0%Z /\
  uncaught (run ["rack.py"; "192.168.32.96"]) = None.
Proof.
  split; [reflexivity |].
  apply (C1_known_address "rack.py" "192.168.32.96" "rack-2"). reflexivity.
Defined.

(** C2: for every address that is not a key of the rack table the script
    prints the line "/rack-default" and succeeds: no exception is raised
    for the missing key, and the lookup [get] with a default returns a string
    for every dictionary, key and state. *)
Theorem C2_unknown_address (script addr : string) :
  rack !! addr = None ->
  (stdout (run [script; addr]) = "/rack-default" +:+ newline /\
   exit_status (run [script; addr]) = 0%Z /\
   uncaught (run [script; addr]) = None) /\
  (forall (d : gmap string string) (key dflt : string) (st : Py.state),
     exists r : string, (Py.dict_get d key dflt st).1 = Py.Ret r).
Proof.
  intros Hnone. split.
  - rewrite run_with_address, Hnone. simpl. auto.
  - intros d key dflt st. eexists. apply dict_get_total.
Qed.

Lemma C2_unknown_address_witness :
  rack !! "unknown-host.example" = None /\
  (stdout (run ["rack.py"; "unknown-host.example"]) = "/rack-default" +:+ newline /\
   exit_status (run ["rack.py"; "unknown-host.example"]) = 0%Z /\
   uncaught (run ["rack.py"; "unknown-host.example"]) = None) /\
  (forall (d : gmap string string) (key dflt : string) (st : Py.state),
     exists r : string, (Py.dict_get d key dflt st).1 = Py.Ret r).
Proof.
  split; [reflexivity |].
  apply (C2_unknown_address "rack.py" "unknown-host.example"). reflexivity.
Defined.

(** C3: the concrete scenarios: "compute-13-10.local" gives "/rack-1",
    "compute-13-14.local" gives "/rack-2", "192.168.32.94" gives "/rack-1",
    "192.168.32.98" gives "/rack-2" and "unknown-host.example" gives
    "/rack-default", each as one line on standard output, whatever the path
    the script is started under. *)
Theorem C3_scenarios (script : string) :
  stdout (run [script; "compute-13-10.local"]) = "/rack-1" +:+ newline /\
  stdout (run [script; "compute-13-14.local"]) = "/rack-2" +:+ newline /\
  stdout (run [script; "192.168.32.94"]) = "/rack-1" +:+ newline /\
  stdout (run [script; "192.168.32.98"]) = "/rack-2" +:+ newline /\
  stdout (run [script; "unknown-host.example"]) = "/rack-default" +:+ newline.
Proof.
  rewrite !run_with_address. repeat split; reflexivity.
Qed.

(** C4: started with no argument, the script ends with a non-zero exit
    status (the uncaught IndexError of [sys.argv[1]]) and writes nothing to
    standard output; the table is not even consulted. *)
Theorem C4_missing_argument (script : string) :
  exit_status (run [script]) <> 0%Z /\
  stdout (run [script]) = "" /\
  uncaught (run [script]) = Some Py.IndexError /\
  events (run [script]) = [].
Proof.
  rewrite run_without_address by (simpl; lia).
  simpl. repeat split; discriminate.
Qed.

(** C5: for every address, in the table or not, the printed line is a
    non-empty string that begins with "/" and holds no newline; standard
    output is that line and its terminator. *)
Theorem C5_output_shape (script addr : string) :
  exists line : string,
    stdout (run [script; addr]) = line +:+ newline /\
    line <> "" /\
    String.prefix "/" line = true /\
    has_newline line = false.
Proof.
  rewrite run_with_address. simpl stdout.
  exists ("/" +:+ default "rack-default" (rack !! addr)).
  split; [reflexivity |].
  destruct (rack_path_cases addr) as [-> | [-> | ->]];
    repeat split; (discriminate || reflexivity).
Qed.

(** Concatenation of byte strings is associative. *)
Lemma string_append_assoc (s t u : string) :
  (s +:+ t) +:+ u = s +:+ (t +:+ u).
Proof.
  induction s as [| c s IH]; [reflexivity |].
  change (String c ((s +:+ t) +:+ u) = String c (s +:+ (t +:+ u))).
  by rewrite IH.
Qed.

(** The module body run as a program from any interpreter state, on an
    argument vector that holds an address: [rack] is bound anew, then one
    lookup and one line, whatever the state held before. *)
Lemma module_body_with_address (st : Py.state) (script addr : string)
    (rest : list string) :
  module_body "__main__" (script :: addr :: rest) st =
    (Py.Ret tt,
     Py.mkState (<["rack" := rack]> (Py.globals st))
       (Py.sys_stdout st +:+ ("/" +:+ default "rack-default" (rack !! addr)) +:+ newline)
       (Py.trace st ++
          [Py.EvGet addr;
           Py.EvWrite (("/" +:+ default "rack-default" (rack !! addr)) +:+ newline)])).
Proof.
  unfold module_body. rewrite decide_True by reflexivity.
  unfold Py.bind at 1. unfold Py.store_global.
  rewrite (main_with_address _ rack) by apply lookup_insert_eq.
  reflexivity.
Qed.

(** C6: the result is a function of the address alone; no state of the
    interpreter influences it.  For every address there is one line,
    without a line feed, such that:
    - two processes started with that address, under whatever script paths,
      end in the same exit status, output, events and table, the output
      being that line;
    - the module body run as a program from any interpreter state at all
      (whatever was written, logged or bound before, [rack] included)
      appends exactly that line and logs exactly one lookup of the address;
    - line 17 executed in any state in which [rack] is bound to the table,
      whatever the output and the log hold, hence any number of times in one
      interpreter, appends exactly that line again;
    - in particular, from any state, a second execution after the first
      leaves the line written twice. *)
Theorem C6_deterministic (addr : string) :
  exists line : string,
    has_newline line = false /\
    (forall script1 script2 : string,
       run [script1; addr] = run [script2; addr] /\
       stdout (run [script1; addr]) = line +:+ newline /\
       exit_status (run [script1; addr]) = 0%Z) /\
    (forall (st : Py.state) (script : string),
       module_body "__main__" [script; addr] st =
         (Py.Ret tt,
          Py.mkState (<["rack" := rack]> (Py.globals st))
            (Py.sys_stdout st +:+ (line +:+ newline))
            (Py.trace st ++ [Py.EvGet addr; Py.EvWrite (line +:+ newline)])%list)) /\
    (forall (st : Py.state) (script : string),
       main [script; addr]
         (Py.mkState (<["rack" := rack]> (Py.globals st))
            (Py.sys_stdout st) (Py.trace st)) =
         (Py.Ret tt,
          Py.mkState (<["rack" := rack]> (Py.globals st))
            (Py.sys_stdout st +:+ (line +:+ newline))
            (Py.trace st ++ [Py.EvGet addr; Py.EvWrite (line +:+ newline)])%list)) /\
    (forall (st : Py.state) (script1 script2 : string),
       Py.sys_stdout
         ((module_body "__main__" [script1; addr] ;;; main [script2; addr]) st).2
       = Py.sys_stdout st +:+ ((line +:+ newline) +:+ (line +:+ newline))).
Proof.
  exists ("/" +:+ default "rack-default" (rack !! addr)).
  split; [| split; [| split; [| split]]].
  - destruct (rack_path_cases addr) as [-> | [-> | ->]]; reflexivity.
  - intros script1 script2. rewrite !run_with_address. repeat split.
  - intros st script. apply module_body_with_address.
  - intros st script.
    rewrite (main_with_address _ rack) by apply lookup_insert_eq.
    reflexivity.
  - intros st script1 script2. unfold Py.bind.
    rewrite module_body_with_address.
    rewrite (main_with_address _ rack) by apply lookup_insert_eq.
    cbn [snd Py.sys_stdout].
    apply string_append_assoc.
Qed.

(** C7: the table is never changed.  Whatever the argument vector, the
    process ends with [rack] bound to the table of the source, and from any
    interpreter state the statement of line 17 leaves the globals as they
    were. *)
Theorem C7_table_unchanged (argv : list string) (st : Py.state) :
  final_globals (run argv) !! "rack" = Some rack /\
  final_globals (run argv) = {["rack" := rack]} /\
  Py.globals (main argv st).2 = Py.globals st.
Proof.
  assert (Hfinal : final_globals (run argv) = {["rack" := rack]}).
  { destruct argv as [| script [| addr rest]].
    - rewrite run_without_address by (simpl; lia). reflexivity.
    - rewrite run_without_address by (simpl; lia). reflexivity.
    - rewrite run_with_address. reflexivity. }
  rewrite Hfinal. split; [| split].
  - apply lookup_singleton_eq.
  - reflexivity.
  - apply main_preserves_globals.
Qed.

(** C8: the script terminates on every argument vector.  [run] is a total
    function; with an address it ends with status 0 after exactly one lookup
    and one written line, and with no address it ends with status 1 after
    nothing at all. *)
Theorem C8_terminates (argv : list string) :
  exists p : process,
    run argv = p /\
    ((exit_status p = 0%Z /\
      exists addr line : string,
        argv !! 1%nat = Some addr /\
        events p = [Py.EvGet addr; Py.EvWrite (line +:+ newline)] /\
        stdout p = line +:+ newline /\
        has_newline line = false /\
        count_newlines (stdout p) = 1%nat)
     \/
     (exit_status p = 1%Z /\ argv !! 1%nat = None /\
      events p = [] /\ stdout p = "")).
Proof.
  eexists. split; [reflexivity |].
  destruct argv as [| script [| addr rest]].
  - right. rewrite run_without_address by (simpl; lia). auto.
  - right. rewrite run_without_address by (simpl; lia). auto.
  - left. rewrite run_with_address.
    split; [reflexivity |].
    exists addr, ("/" +:+ default "rack-default" (rack !! addr)).
    destruct (rack_path_cases addr) as [-> | [-> | ->]];
      repeat split; reflexivity.
Qed.

(** C9: the table holds exactly 8 entries, every value is "rack-1" or
    "rack-2", and so for every address the printed line is one of
    "/rack-1", "/rack-2" and "/rack-default". *)
Theorem C9_three_results (script addr : string) :
  size rack = 8%nat /\
  map_Forall (fun _ v => v = "rack-1" \/ v = "rack-2") rack /\
  (stdout (run [script; addr]) = "/rack-1" +:+ newline \/
   stdout (run [script; addr]) = "/rack-2" +:+ newline \/
   stdout (run [script; addr]) = "/rack-default" +:+ newline).
Proof.
  split; [exact rack_size |]. split; [exact rack_values |].
  rewrite run_with_address. simpl stdout.
  destruct (rack_path_cases addr) as [-> | [-> | ->]]; auto.
Qed.

(** C10: arguments after the first are ignored: with one or more extra
    arguments the process is the one of the first argument alone. *)
Theorem C10_extra_arguments_ignored (script addr extra : string) (rest : list string) :
  run (script :: addr :: extra :: rest) = run [script; addr].
Proof.
  rewrite !run_with_address. reflexivity.
Qed.

(** ** Further properties of the script *)

(** X1: the guard of line 16.  Executed under any module name other than
    "__main__" (the module is imported, not run), the body only binds
    [rack]: nothing is written, nothing is looked up, no exception is raised,
    whatever [sys.argv] holds, even with no argument at all. *)
Theorem X1_import_guard (name : string) (argv : list string) (st : Py.state) :
  name <> "__main__" ->
  module_body name argv st =
    (Py.Ret tt,
     Py.mkState (<["rack" := rack]> (Py.globals st)) (Py.sys_stdout st) (Py.trace st)).
Proof.
  intros Hname. unfold module_body.
  rewrite decide_False by exact Hname.
  reflexivity.
Qed.

Lemma X1_import_guard_witness :
  "rack" <> "__main__" /\
  module_body "rack" ["client.py"] initial_state =
    (Py.Ret tt,
     Py.mkState (<["rack" := rack]> (Py.globals initial_state))
       (Py.sys_stdout initial_state) (Py.trace initial_state)).
Proof.
  split; [discriminate |].
  apply (X1_import_guard "rack" ["client.py"] initial_state). discriminate.
Defined.

(** X2: the exit status tells whether an address was supplied.  For every
    argument vector the status is 0 exactly when [sys.argv] has an element
    at index 1, otherwise it is 1; standard output is empty exactly in the
    failing case; and the only exception that can escape is IndexError,
    never NameError, since [rack] is bound before line 17 reads it. *)
Theorem X2_status_tells_address (argv : list string) :
  (exit_status (run argv) = 0%Z <-> (2 <= length argv)%nat) /\
  (exit_status (run argv) = 1%Z <-> (length argv <= 1)%nat) /\
  (stdout (run argv) = "" <-> exit_status (run argv) = 1%Z) /\
  (uncaught (run argv) = None <-> exit_status (run argv) = 0%Z) /\
  uncaught (run argv) <> Some Py.NameError.
Proof.
  destruct argv as [| script [| addr rest]].
  - rewrite run_without_address by (simpl; lia). simpl.
    repeat split; intros; try lia; try discriminate; try reflexivity.
  - rewrite run_without_address by (simpl; lia). simpl.
    repeat split; intros; try lia; try discriminate; try reflexivity.
  - rewrite run_with_address.
    cbn [exit_status stdout uncaught length].
    repeat split; intros; try lia; try discriminate; try reflexivity.
Qed.

(** X3: the default line marks the unknown addresses, and only them: no
    value of the table is "rack-default", so the script prints
    "/rack-default" exactly when the address is not a key of the table. *)
Theorem X3_default_iff_unknown (script addr : string) :
  stdout (run [script; addr]) = "/rack-default" +:+ newline <-> rack !! addr = None.
Proof.
  rewrite run_with_address. cbn [stdout].
  destruct (rack !! addr) as [v |] eqn:Hv.
  - destruct (rack_value_cases addr v Hv) as [-> | ->];
      split; intros H; discriminate H.
  - split; reflexivity.
Qed.

(** X4: which addresses resolve to which rack.  The script prints
    "/rack-1" exactly for the four addresses the source lists under
    "rack-1", and "/rack-2" exactly for the four it lists under "rack-2";
    the comparison is on the whole byte string. *)
Theorem X4_rack_preimages (script addr : string) :
  (stdout (run [script; addr]) = "/rack-1" +:+ newline <->
   addr ∈ ["compute-13-10.local"; "compute-13-12.local";
           "192.168.32.92"; "192.168.32.94"]) /\
  (stdout (run [script; addr]) = "/rack-2" +:+ newline <->
   addr ∈ ["compute-13-14.local"; "compute-13-16.local";
           "192.168.32.96"; "192.168.32.98"]).
Proof.
  rewrite run_with_address. cbn [stdout].
  rewrite !elem_of_cons, !elem_of_nil.
  destruct (rack !! addr) as [v |] eqn:Hv.
  - apply rack_lookup_items in Hv. unfold rack_items in Hv.
    rewrite !elem_of_cons, elem_of_nil in Hv.
    repeat (destruct Hv as [Hv | Hv];
            [injection Hv as -> ->;
             split; (split; [intros H; first [discriminate H | auto 8]
                            | intros H; first [reflexivity
                                              | repeat (destruct H as [H | H];
                                                        [discriminate H |]);
                                                destruct H]]) |]).
    destruct Hv.
  - split; (split; [intros H; discriminate H |]).
    + intros H. repeat (destruct H as [H | H]; [subst addr; discriminate Hv |]).
      destruct H.
    + intros H. repeat (destruct H as [H | H]; [subst addr; discriminate Hv |]).
      destruct H.
Qed.

(** Length of a concatenation of byte strings. *)
Lemma string_length_append (s t : string) :
  String.length (s +:+ t) = (String.length s + String.length t)%nat.
Proof.
  induction s as [| c s IH]; simpl; [reflexivity |]. by rewrite IH.
Qed.

(** The keys of the table are looked up as whole byte strings: a key with
    bytes added after it is not a key. *)
Lemma rack_key_extended_right (key suffix : string) :
  is_Some (rack !! key) -> suffix <> "" -> rack !! (key +:+ suffix) = None.
Proof.
  intros [v Hv] Hs.
  destruct (rack !! (key +:+ suffix)) as [w |] eqn:E; [exfalso | reflexivity].
  apply rack_lookup_items in Hv. apply rack_lookup_items in E.
  unfold rack_items in Hv, E.
  rewrite !elem_of_cons, elem_of_nil in Hv.
  rewrite !elem_of_cons, elem_of_nil in E.
  repeat (destruct Hv as [Hv | Hv];
          [injection Hv as -> ->; cbv [String.append] in E;
           repeat (destruct E as [E | E]; [by simplify_eq |]); destruct E |]).
  destruct Hv.
Qed.

(** Nor is a key with bytes added before it a key. *)
Lemma rack_key_extended_left (key prefix : string) :
  is_Some (rack !! key) -> prefix <> "" -> rack !! (prefix +:+ key) = None.
Proof.
  intros [v Hv] Hp.
  destruct (rack !! (prefix +:+ key)) as [w |] eqn:E; [exfalso | reflexivity].
  apply rack_lookup_items in Hv. apply rack_lookup_items in E.
  unfold rack_items in Hv, E.
  rewrite !elem_of_cons, elem_of_nil in Hv.
  rewrite !elem_of_cons, elem_of_nil in E.
  repeat (destruct Hv as [Hv | Hv];
          [injection Hv as -> ->;
           repeat (destruct E as [E | E];
                   [injection E as E _;
                    pose proof (f_equal String.length E) as Hlen;
                    rewrite string_length_append in Hlen; simpl in Hlen;
                    do 7 (try (destruct prefix as [| ? prefix];
                               simpl in Hlen; try lia; try done));
                    cbv [String.append] in E; by simplify_eq |]);
           destruct E |]).
  destruct Hv.
Qed.

(** X5: addresses are matched as whole byte strings.  A key of the table
    with one or more further bytes after it (a trailing dot, a port) or
    before it (a scheme, white space) is not recognised: the script prints
    "/rack-default" for it, and still succeeds. *)
Theorem X5_extended_key_is_unknown (script key extra : string) :
  is_Some (rack !! key) ->
  extra <> "" ->
  run [script; key +:+ extra] =
    mkProcess 0 ("/rack-default" +:+ newline) None
      [Py.EvGet (key +:+ extra); Py.EvWrite ("/rack-default" +:+ newline)]
      {["rack" := rack]} /\
  run [script; extra +:+ key] =
    mkProcess 0 ("/rack-default" +:+ newline) None
      [Py.EvGet (extra +:+ key); Py.EvWrite ("/rack-default" +:+ newline)]
      {["rack" := rack]}.
Proof.
  intros Hkey Hextra. rewrite !run_with_address.
  rewrite (rack_key_extended_right key extra Hkey Hextra).
  rewrite (rack_key_extended_left key extra Hkey Hextra).
  split; reflexivity.
Qed.

Lemma X5_extended_key_is_unknown_witness :
  is_Some (rack !! "192.168.32.92") /\
  ":50010" <> "" /\
  run ["rack.py"; "192.168.32.92" +:+ ":50010"] =
    mkProcess 0 ("/rack-default" +:+ newline) None
      [Py.EvGet ("192.168.32.92" +:+ ":50010");
       Py.EvWrite ("/rack-default" +:+ newline)]
      {["rack" := rack]} /\
  run ["rack.py"; ":50010" +:+ "192.168.32.92"] =
    mkProcess 0 ("/rack-default" +:+ newline) None
      [Py.EvGet (":50010" +:+ "192.168.32.92");
       Py.EvWrite ("/rack-default" +:+ newline)]
      {["rack" := rack]}.
Proof.
  split; [exists "rack-1"; reflexivity |].
  split; [discriminate |].
  apply (X5_extended_key_is_unknown "rack.py" "192.168.32.92" ":50010").
  - exists "rack-1". reflexivity.
  - discriminate.
Defined.



(** X7: the table is the display of the source, entry for entry.  The eight
    keys written in lines 5-12 are pairwise different, so no entry replaces
    another: an address maps to a rack in the table exactly when that pair
    is written in the source, and the keys of the table are the written
    ones. *)
Theorem X7_table_is_the_display (k v : string) :
  NoDup rack_items.*1 /\
  size rack = length rack_items /\
  (rack !! k = Some v <-> (k, v) ∈ rack_items) /\
  (is_Some (rack !! k) <-> k ∈ rack_items.*1).
Proof.
  split; [| split; [| split]].
  - apply (bool_decide_unpack _). vm_compute. reflexivity.
  - reflexivity.
  - apply rack_lookup_items.
  - split.
    + intros [w Hw]. apply rack_lookup_items in Hw.
      apply list_elem_of_fmap. exists (k, w). auto.
    + intros Hk. apply list_elem_of_fmap in Hk as [[k' w] [-> Hin]].
      exists w. apply rack_lookup_items. exact Hin.
Qed.
